(** * The prompt-engineering page ([streamlit_app.py]) and its properties

    A shallow embedding of the single-page Streamlit program: credential
    resolution at start-up, composition of the outbound instruction,
    the one blocking POST with its two exception handlers, the chained
    extraction of [choices[0].message.content], and the button handler.

    Python values are modelled as the interpreter has them: a [str] is a
    sequence of Unicode code points, a [dict] built by [json.loads] or by
    a display keeps its keys in order, exceptions are values that
    propagate until a handler of a matching class takes them.  The calls
    the script makes to Streamlit and to [httpx.post] are a log of events
    written in program order. *)

From Stdlib Require Import ZArith NArith String Ascii List Lia Bool.
From stdpp Require Import gmap strings list fin_maps.

Local Open Scope Z_scope.
Set Warnings "-register-all".

(** ** Python strings *)

Module PyStr.

(** A Python [str]: its code points, in order. *)
Abbreviation pystr := (list N).

(** An ASCII literal of the source, as a [str]. *)
Definition lit (s : string) : pystr :=
  (fun a => N_of_ascii a) <$> list_ascii_of_string s.

(** The line feed and the double quote, which the literals below splice in
    between their pieces. *)
Definition nl : pystr := [10%N].
Definition dq : pystr := [34%N].

(** [str.isspace] on one code point, as CPython's [Py_UNICODE_ISSPACE]
    decides it: the ASCII table entries 0x09-0x0D, 0x1C-0x1F and 0x20, and
    the code points with bidirectional type WS, B or S or category Zs. *)
Definition isspace (c : N) : bool :=
  ((9 <=? c) && (c <=? 13) || (28 <=? c) && (c <=? 32)
   || (c =? 133) || (c =? 160) || (c =? 5760)
   || (8192 <=? c) && (c <=? 8202)
   || (c =? 8232) || (c =? 8233) || (c =? 8239) || (c =? 8287)
   || (c =? 12288))%N.

(** [str.lstrip()], [str.rstrip()] and [str.strip()] with no argument. *)
Fixpoint lstrip (s : pystr) : pystr :=
  match s with
  | c :: s' => if isspace c then lstrip s' else s
  | [] => []
  end.

Definition rstrip (s : pystr) : pystr := rev (lstrip (rev s)).

Definition strip (s : pystr) : pystr := rstrip (lstrip s).

(** Truth value of a [str]: false exactly for the empty string. *)
Definition truthy (s : pystr) : bool :=
  match s with [] => false | _ :: _ => true end.

(** A [str] can hold surrogate code points (U+D800 to U+DFFF) on their
    own; such a string has no UTF-8 encoding. *)
Definition is_surrogate (c : N) : bool := ((55296 <=? c) && (c <=? 57343))%N.

Definition utf8_encodable (s : pystr) : bool := forallb (fun c => negb (is_surrogate c)) s.

(** A header value is sent as ASCII. *)
Definition ascii_encodable (s : pystr) : bool := forallb (fun c => (c <? 128)%N) s.

(** [needle in hay] for strings, as a proposition. *)
Definition infix (needle hay : pystr) : Prop :=
  exists pre post, hay = pre ++ needle ++ post.

End PyStr.
Export PyStr.

(** ** Module-level constants *)

Definition DEEPSEEK_API_URL : pystr := lit "https://api.deepseek.com/chat/completions".
Definition DEEPSEEK_MODEL : pystr := lit "deepseek-chat".

(** The triple-quoted knowledge base: it starts and ends with a line feed. *)
Definition KNOWLEDGE_BASE : pystr :=
  nl ++
  lit "Effective Prompt Engineering: The 4C's Framework" ++ nl ++
  lit "To transform a vague prompt into a well-defined one, incorporate these four essential elements:" ++ nl ++
  lit "Context: Specify who you are, your role, and the situation. Include your background, expertise level, and the specific circumstances requiring AI assistance. This helps the AI understand your perspective and tailor responses appropriately." ++ nl ++
  lit "Constraints: Define clear boundaries including word count, format requirements, tone (academic, casual, professional), deadlines, and any limitations on tools or sources. Specify what to avoid and include safety parameters when relevant." ++ nl ++
  lit "Content Goal: Articulate exactly what output you need - whether it's a summary, analysis, plan, code, or creative content. Be specific about the type of deliverable, its purpose, and intended audience. Replace broad requests with precise objectives." ++ nl ++
  lit "Check: Include verification criteria by asking the AI to confirm sources are real (not hallucinated), validate structure meets requirements, or explain its reasoning. Add acceptance tests you'll use to evaluate the output's quality and accuracy." ++ nl ++
  lit "Implementation: Structure your prompt as: " ++ dq ++ lit "[ROLE/CONTEXT] + [SPECIFIC GOAL] + [FORMAT/LENGTH/TONE] + [KEY DETAILS] + [VERIFICATION REQUEST]" ++ dq ++ nl ++
  lit "This framework transforms generic requests like " ++ dq ++ lit "tell me about X" ++ dq ++ lit " into targeted instructions that produce reliable, useful, and actionable AI outputs while minimizing errors and misunderstandings." ++ nl.

(** ** Prompt composition

    The f-string of [refine_prompt_core], line by line; both
    interpolations are of [str] values, so [format] leaves them as they
    are. *)
Definition full_prompt_for_deepseek (user_prompt : pystr) : pystr :=
  nl ++
  lit "    You are a world-class prompt engineer. Your task is to take a basic user prompt and, using the " ++ dq ++ lit "4C's Framework" ++ dq ++ lit " provided below," ++ nl ++
  lit "    transform it into a highly detailed, professional, and effective prompt for a large language model." ++ nl ++
  nl ++
  lit "    **Instructions:**" ++ nl ++
  lit "    1.  Read and apply the " ++ dq ++ lit "4C's Framework" ++ dq ++ lit " provided in the <knowledge_base> section." ++ nl ++
  lit "    2.  Based on the user's <vague_prompt>, you must *invent* and *make up* specific, realistic details for the missing 4C's elements (Context, Constraints, Content Goal, Check). This is crucial. For example, if the user says " ++ dq ++ lit "write a poem," ++ dq ++ lit " you should invent a persona like " ++ dq ++ lit "a hopeful poet" ++ dq ++ lit " and constraints like " ++ dq ++ lit "a sonnet with 14 lines." ++ dq ++ nl ++
  lit "    3.  Combine these invented details with the user's prompt to create a final, well-structured prompt." ++ nl ++
  lit "    4.  The final output must be only the complete, refined prompt, formatted neatly and without any additional conversation or explanation." ++ nl ++
  nl ++
  lit "    <knowledge_base>" ++ nl ++
  lit "    " ++ KNOWLEDGE_BASE ++ nl ++
  lit "    </knowledge_base>" ++ nl ++
  nl ++
  lit "    <vague_prompt>" ++ nl ++
  lit "    " ++ user_prompt ++ nl ++
  lit "    </vague_prompt>" ++ nl ++
  lit "    ".

(** A body between an XML-like tag pair, laid out as the template lays it
    out: each of the three on a line of its own, indented by four blanks. *)
Definition indent : pystr := nl ++ lit "    ".

Definition tagged (tag body : pystr) : pystr :=
  lit "<" ++ tag ++ lit ">" ++ indent ++ body ++ indent ++ lit "</" ++ tag ++ lit ">".

(** ** Python values, exceptions and effects *)

(** The values [json.loads] builds and the values of the request body.
    A [dict] keeps its entries in insertion order; the interpreter never
    builds one with a repeated key, and [dict_get] takes the entry of the
    key.  A [float] is carried by its IEEE 754 binary64 bits: the program
    never computes with one. *)
Inductive pyval : Type :=
| PyNone
| PyBool (b : bool)
| PyInt (n : Z)
| PyFloat (bits : N)
| PyStr (s : pystr)
| PyList (items : list pyval)
| PyDict (entries : list (pystr * pyval)).

Fixpoint dict_get (entries : list (pystr * pyval)) (key : pystr) : option pyval :=
  match entries with
  | [] => None
  | (k, v) :: rest => if decide (k = key) then Some v else dict_get rest key
  end.

(** What the program reads of an [httpx.Response]: the status line, the
    decoded body ([response.text]) and the result of parsing the body
    ([response.json()]; [None] when the body is not a JSON document). *)
Record Response : Type := {
  status_code : Z;
  text : pystr;
  json : option pyval
}.

(** The arguments of the one [httpx.post] call. *)
Record Request : Type := {
  url : pystr;
  json_body : pyval;
  headers : list (pystr * pystr);
  timeout : Z
}.

(** The exceptions that can arise in the program, by class.  The two httpx
    classes are siblings below [httpx.HTTPError]; [JSONDecodeError] and
    [UnicodeEncodeError] are [ValueError]s; [SecretsFileNotFound] is the
    [FileNotFoundError] Streamlit raises when the secret store is used and
    no secrets file exists; none of these others is an httpx class. *)
Inductive exn : Type :=
| HTTPStatusError (response : Response)
| RequestError (message : pystr)
| JSONDecodeError
| AttributeError
| IndexError
| KeyError
| TypeError
| UnicodeEncodeError
| SecretsFileNotFound.

(** The calls the script makes, in program order: the Streamlit calls that
    draw on the page, and the call of [httpx.post] with its arguments.  An
    [httpx_post] event says that the function was called, not that bytes
    reached the remote side. *)
Inductive event : Type :=
| st_title (body : pystr)
| st_markdown (body : pystr)
| st_text_area (label : pystr) (height : Z) (placeholder : pystr)
| st_button (label help : pystr)
| st_spinner_enter (body : pystr)
| st_spinner_exit
| st_error (body : pystr)
| st_warning (body : pystr)
| st_success (body : pystr)
| st_subheader (body : pystr)
| st_code (body language : pystr)
| httpx_post (request : Request).

(** Evaluating an expression returns a value or raises. *)
Inductive outcome (A : Type) : Type :=
| Returns (a : A)
| Raises (e : exn).
Arguments Returns {A} a.
Arguments Raises {A} e.

#[global] Instance outcome_ret : MRet outcome := fun A a => Returns a.

#[global] Instance outcome_bind : MBind outcome := fun A B k m =>
  match m with
  | Returns a => k a
  | Raises e => Raises e
  end.

(** A statement writes events and then returns a value or raises. *)
Definition run (A : Type) : Type := list event * outcome A.

#[global] Instance run_ret : MRet run := fun A a => ([], Returns a).

#[global] Instance run_bind : MBind run := fun A B k m =>
  match m with
  | (log, Returns a) => let (log', o) := k a in (log ++ log', o)
  | (log, Raises e) => (log, Raises e)
  end.

(** An expression evaluated as a statement: it writes nothing. *)
Definition lift {A : Type} (o : outcome A) : run A := ([], o).

Definition raise {A : Type} (e : exn) : run A := lift (Raises e).

Definition emit (ev : event) : run unit := ([ev], Returns tt).

(** [try: body except ...:] where [handler] gives the suite of the first
    clause whose class the exception is an instance of, if any. *)
Definition try_except {A : Type} (body : run A) (handler : exn -> option (run A)) : run A :=
  match body with
  | (log, Raises e) =>
      match handler e with
      | Some suite => let (log', o) := suite in (log ++ log', o)
      | None => (log, Raises e)
      end
  | (log, Returns a) => (log, Returns a)
  end.

(** [with st.spinner(body):] the spinner is shown on entry and removed on
    exit, also when the block raises. *)
Definition with_spinner {A : Type} (body : pystr) (block : run A) : run A :=
  let (log, o) := block in (st_spinner_enter body :: log ++ [st_spinner_exit], o).

(** The events of a log that are calls of [httpx.post]. *)
Definition is_post (ev : event) : bool :=
  match ev with httpx_post _ => true | _ => false end.

Definition posts (log : list event) : list event := List.filter is_post log.

(** ** Operations on values that the extraction chain uses *)

(** [v.get(key, dflt)]: only a [dict] has the method. *)
Definition py_get (v : pyval) (key : pystr) (dflt : pyval) : outcome pyval :=
  match v with
  | PyDict entries => Returns (default dflt (dict_get entries key))
  | _ => Raises AttributeError
  end.

(** [v[0]]: the first item of a list or string, [IndexError] when it is
    empty; a [dict] of string keys has no key [0]; the other types are not
    subscriptable. *)
Definition py_getitem0 (v : pyval) : outcome pyval :=
  match v with
  | PyList (x :: _) => Returns x
  | PyList [] => Raises IndexError
  | PyStr (c :: _) => Returns (PyStr [c])
  | PyStr [] => Raises IndexError
  | PyDict _ => Raises KeyError
  | PyNone | PyBool _ | PyInt _ | PyFloat _ => Raises TypeError
  end.

(** [v.strip()]: only a [str] has the method. *)
Definition py_strip (v : pyval) : outcome pystr :=
  match v with
  | PyStr s => Returns (strip s)
  | _ => Raises AttributeError
  end.

(** Truth value of a name bound to [None] or to a [str]. *)
Definition truthy_opt (v : option pystr) : bool :=
  match v with
  | Some s => truthy s
  | None => false
  end.

(** [str(v)] for such a name, as an f-string field formats it. *)
Definition py_str (v : option pystr) : pystr :=
  match v with
  | Some s => s
  | None => lit "None"
  end.

(** ** Credential resolution (module level) *)

Definition KEY_NAME : pystr := lit "DEEPSEEK_API_KEY".

(** [load_dotenv()]: the assignments of the [.env] file enter the
    environment, a variable that is already set keeps its value. *)
Definition load_dotenv (dotenv environ : gmap pystr pystr) : gmap pystr pystr :=
  environ ∪ dotenv.

(** The secret store as the process finds it: [None] when no secrets file
    exists (the store is unavailable), else the mapping the file holds,
    which can be empty. *)
Abbreviation secret_store := (option (gmap pystr pystr)).

(** [not st.secrets]: the truth test reads the store, so on an unavailable
    store the test itself raises; on a mapping it is true exactly when the
    mapping has no entry. *)
Definition not_secrets (secrets : secret_store) : outcome bool :=
  match secrets with
  | None => Raises SecretsFileNotFound
  | Some store => Returns (bool_decide (size store = 0%nat))
  end.

(** [st.secrets[name]]: a missing name raises [KeyError]. *)
Definition secrets_getitem (secrets : secret_store) (name : pystr) : outcome pystr :=
  match secrets with
  | None => Raises SecretsFileNotFound
  | Some store =>
      match store !! name with
      | Some value => Returns value
      | None => Raises KeyError
      end
  end.

(** The [if not st.secrets: ... else: ...] block.  [os.environ.get] gives
    [None] for a variable that is not set. *)
Definition resolve_credential (secrets : secret_store) (environ dotenv : gmap pystr pystr)
  : run (option pystr) :=
  empty ← lift (not_secrets secrets);
  if (empty : bool) then
    let environ := load_dotenv dotenv environ in
    mret (environ !! KEY_NAME)
  else
    key ← lift (secrets_getitem secrets KEY_NAME);
    mret (Some key).

(** The request-body model of the source (a pydantic class with one
    field); the page never instantiates it. *)
Record PromptRequest : Type := { prompt : pystr }.

(** ** The remote completion call *)

Section Page.

(** How a call of [httpx.post] ends: a response arrives (of any status);
    or the transport fails with an [httpx.RequestError] whose [str] is the
    message; or the request cannot be built, because a header value has a
    character outside ASCII, and [UnicodeEncodeError] is raised before
    anything is sent. *)
Inductive post_outcome : Type :=
| Responded (response : Response)
| Failed (message : pystr)
| Unencodable.

Variable network : Request -> post_outcome.

(** [httpx.post(url, json=..., headers=..., timeout=...)]: the call is
    logged, then it ends in one of the three ways. *)
Definition post (request : Request) : run Response :=
  emit (httpx_post request);;
  match network request with
  | Responded response => mret response
  | Failed message => raise (RequestError message)
  | Unencodable => raise UnicodeEncodeError
  end.

(** [response.raise_for_status()]: passes exactly when
    [response.is_success], that is for the codes 200 to 299. *)
Definition is_success (response : Response) : bool :=
  (200 <=? status_code response) && (status_code response <=? 299).

Definition raise_for_status (response : Response) : outcome unit :=
  if is_success response then Returns tt else Raises (HTTPStatusError response).

(** [response.json()]. *)
Definition response_json (response : Response) : outcome pyval :=
  match json response with
  | Some v => Returns v
  | None => Raises JSONDecodeError
  end.

(** [api_response.get("choices", [{}])[0].get("message", {}).get("content", "").strip()],
    evaluated left to right. *)
Definition extract_content (api_response : pyval) : outcome pystr :=
  choices ← py_get api_response (lit "choices") (PyList [PyDict []]);
  choice ← py_getitem0 choices;
  message ← py_get choice (lit "message") (PyDict []);
  content ← py_get message (lit "content") (PyStr []);
  py_strip content.

(** The request [refine_prompt_core] sends for a credential and an input. *)
Definition deepseek_request (DEEPSEEK_API_KEY : option pystr) (user_prompt : pystr)
  : Request :=
  let messages :=
    PyList [PyDict [(lit "role", PyStr (lit "user"));
                    (lit "content", PyStr (full_prompt_for_deepseek user_prompt))]] in
  let payload :=
    PyDict [(lit "model", PyStr DEEPSEEK_MODEL);
            (lit "messages", messages);
            (lit "max_tokens", PyInt 2048);
            (lit "temperature", PyFloat 0x3FE6666666666666)] in
  let headers :=
    [(lit "Authorization", lit "Bearer " ++ py_str DEEPSEEK_API_KEY);
     (lit "Content-Type", lit "application/json")] in
  {| url := DEEPSEEK_API_URL;
     json_body := payload;
     headers := headers;
     timeout := 60 |}.

(** [refine_prompt_core(user_prompt)], with the module-level credential as
    an argument.  It returns a [str] or [None]. *)
Definition refine_prompt_core (DEEPSEEK_API_KEY : option pystr) (user_prompt : pystr)
  : run (option pystr) :=
  if negb (truthy_opt DEEPSEEK_API_KEY) then
    emit (st_error
            (lit "DeepSeek API key not found. Please add it to your Streamlit secrets."));;
    mret None
  else
    try_except
      (response ← post (deepseek_request DEEPSEEK_API_KEY user_prompt);
       lift (raise_for_status response);;
       api_response ← lift (response_json response);
       refined_prompt ← lift (extract_content api_response);
       mret (Some refined_prompt))
      (fun e =>
         match e with
         | HTTPStatusError response =>
             Some (emit (st_error (lit "DeepSeek API error: " ++ text response));;
                   mret None)
         | RequestError message =>
             Some (emit (st_error
                     (lit "An error occurred while calling the DeepSeek API: " ++ message));;
                   mret None)
         | _ => None
         end).

(** ** The page *)

(** [st.code(body, language=...)]: the text is serialised as UTF-8 for the
    browser, so a text with a lone surrogate raises and no code block is
    drawn.  Of the texts the script draws only this one can hold a lone
    surrogate: it is built by [json.loads], which accepts an escaped lone
    surrogate; the other texts are ASCII literals, [response.text]
    (decoded with replacement characters) and the library's own message of
    a transport error. *)
Definition code_block (body language : pystr) : run unit :=
  if utf8_encodable body then emit (st_code body language)
  else raise UnicodeEncodeError.

(** The body of [if st.button(...):], entered when the button was pressed
    in this run of the script. *)
Definition on_button (DEEPSEEK_API_KEY : option pystr) (user_prompt : pystr) : run unit :=
  if truthy user_prompt then
    with_spinner (lit "Engineering your prompt...")
      (refined_prompt ← refine_prompt_core DEEPSEEK_API_KEY user_prompt;
       if truthy_opt refined_prompt then
         emit (st_success (lit "Prompt Refined Successfully!"));;
         emit (st_subheader (lit "Final Engineered Prompt:"));;
         code_block (py_str refined_prompt) (lit "text")
       else
         emit (st_error
                 (lit "Error: Could not retrieve a refined prompt. Please check your API key and try again.")))
  else
    emit (st_warning (lit "Please enter a prompt to engineer.")).

(** The widgets of the page, then the handler.  [user_prompt] is what the
    text area holds and [pressed] what [st.button] returns in this run. *)
Definition page (DEEPSEEK_API_KEY : option pystr) (user_prompt : pystr) (pressed : bool)
  : run unit :=
  emit (st_title (0x1F4A1%N :: lit " AI Prompt Engineer"));;
  emit (st_markdown
          (lit "Enter a simple, vague prompt below, and our AI will transform it into a professional, well-rounded prompt."));;
  emit (st_text_area (lit "Your Basic Prompt") 150
          (lit "e.g., write a report about renewable energy"));;
  emit (st_button (lit "Engineer Prompt") (lit "Click to get a professional prompt."));;
  if pressed then on_button DEEPSEEK_API_KEY user_prompt else mret tt.

(** One run of the script: the module-level statements, in order. *)
Definition script (secrets : secret_store) (environ dotenv : gmap pystr pystr)
    (user_prompt : pystr) (pressed : bool) : run unit :=
  DEEPSEEK_API_KEY ← resolve_credential secrets environ dotenv;
  page DEEPSEEK_API_KEY user_prompt pressed.

End Page.

(** ** Vocabulary of the properties *)

(** The two exception classes the [except] clauses of [refine_prompt_core]
    name. *)
Definition is_httpx_error (e : exn) : bool :=
  match e with
  | HTTPStatusError _ | RequestError _ => true
  | _ => false
  end.

Definition is_st_success (ev : event) : bool :=
  match ev with st_success _ => true | _ => false end.

Definition is_st_error (ev : event) : bool :=
  match ev with st_error _ => true | _ => false end.

Definition is_st_warning (ev : event) : bool :=
  match ev with st_warning _ => true | _ => false end.

(** Some event of the log is of the given kind. *)
Definition shows (kind : event -> bool) (log : list event) : bool := existsb kind log.

(** The messages of the page. *)
Definition MSG_NO_KEY : pystr :=
  lit "DeepSeek API key not found. Please add it to your Streamlit secrets.".
Definition MSG_NO_RESULT : pystr :=
  lit "Error: Could not retrieve a refined prompt. Please check your API key and try again.".
Definition MSG_EMPTY_INPUT : pystr := lit "Please enter a prompt to engineer.".
Definition MSG_SPINNER : pystr := lit "Engineering your prompt...".

(** The response envelope the extraction accepts: at each level of
    [choices[0].message.content] the key is either absent or holds a value
    of the type the next step needs. *)
Definition absent_or (shape : pyval -> bool) (entries : list (pystr * pyval)) (key : pystr)
  : bool :=
  match dict_get entries key with
  | None => true
  | Some v => shape v
  end.

Definition is_str (v : pyval) : bool :=
  match v with PyStr _ => true | _ => false end.

Definition message_shape (v : pyval) : bool :=
  match v with
  | PyDict message => absent_or is_str message (lit "content")
  | _ => false
  end.

Definition choice_shape (v : pyval) : bool :=
  match v with
  | PyDict choice => absent_or message_shape choice (lit "message")
  | _ => false
  end.

Definition choices_shape (v : pyval) : bool :=
  match v with
  | PyList (choice :: _) => choice_shape choice
  | _ => false
  end.

Definition envelope_shape (v : pyval) : bool :=
  match v with
  | PyDict top => absent_or choices_shape top (lit "choices")
  | _ => false
  end.

(** The text at [choices[0].message.content] when every level of the path
    is there: an optional-path lookup, with no default anywhere. *)
Definition path_content (v : pyval) : option pystr :=
  match v with
  | PyDict top =>
      match dict_get top (lit "choices") with
      | Some (PyList (PyDict choice :: _)) =>
          match dict_get choice (lit "message") with
          | Some (PyDict message) =>
              match dict_get message (lit "content") with
              | Some (PyStr s) => Some s
              | _ => None
              end
          | _ => None
          end
      | _ => None
      end
  | _ => None
  end.

(** The widgets every run of the script draws before the handler. *)
Definition widgets : list event :=
  [st_title (0x1F4A1%N :: lit " AI Prompt Engineer");
   st_markdown
     (lit "Enter a simple, vague prompt below, and our AI will transform it into a professional, well-rounded prompt.");
   st_text_area (lit "Your Basic Prompt") 150
     (lit "e.g., write a report about renewable energy");
   st_button (lit "Engineer Prompt") (lit "Click to get a professional prompt.")].

(** ** Concrete inputs used below *)

(** A remote side that answers every request with the same response. *)
Definition answering (response : Response) : Request -> post_outcome :=
  fun _ => Responded response.

(** HTTP 200 responses for a parsed body; the raw text plays no role on
    this path. *)
Definition ok_json (body : pyval) : Response :=
  {| status_code := 200; text := []; json := Some body |}.

(** [{"choices":[{"message":{"content":"  Hello World  "}}]}] *)
Definition hello_world_body : pyval :=
  PyDict [(lit "choices",
           PyList [PyDict [(lit "message",
                            PyDict [(lit "content", PyStr (lit "  Hello World  "))])]])].

(** [{"choices":[]}] *)
Definition empty_choices_body : pyval :=
  PyDict [(lit "choices", PyList [])].

(** [{}] *)
Definition empty_object_body : pyval := PyDict [].

(** [{"choices":[{"message":{"content":null}}]}] *)
Definition null_content_body : pyval :=
  PyDict [(lit "choices",
           PyList [PyDict [(lit "message", PyDict [(lit "content", PyNone)])]])].

(** [{"choices":[{"message":{"content":"   "}}]}] *)
Definition blank_content_body : pyval :=
  PyDict [(lit "choices",
           PyList [PyDict [(lit "message", PyDict [(lit "content", PyStr (lit "   "))])]])].

(** [{"choices":[{"message":{}}]}] *)
Definition no_content_body : pyval :=
  PyDict [(lit "choices", PyList [PyDict [(lit "message", PyDict [])]])].

(** [{"choices":[{"message":{"content":"ok \ud800"}}]}]: the escape is a
    lone surrogate, which [json.loads] keeps. *)
Definition lone_surrogate_body : pyval :=
  PyDict [(lit "choices",
           PyList [PyDict [(lit "message",
                            PyDict [(lit "content", PyStr (lit "ok " ++ [55296%N]))])]])].

(** HTTP 429 with the body text [rate limited]. *)
Definition rate_limited : Response :=
  {| status_code := 429; text := lit "rate limited"; json := None |}.

(** HTTP 200 with a body that is no JSON document. *)
Definition ok_html : Response :=
  {| status_code := 200; text := lit "<html>Bad gateway</html>"; json := None |}.

Definition sample_key : pystr := lit "sk-test".
Definition sample_prompt : pystr := lit "write a poem".

(** [httpx.post] over a remote side [wire]: a request whose header values
    are not all ASCII is not sent. *)
Definition headers_encodable (request : Request) : bool :=
  forallb (fun header => ascii_encodable (snd header)) (headers request).

Definition encoding_headers (wire : Request -> post_outcome) : Request -> post_outcome :=
  fun request => if headers_encodable request then wire request else Unencodable.

(** A remote side that cannot be reached: every post fails in transport. *)
Definition unreachable (message : pystr) : Request -> post_outcome :=
  fun _ => Failed message.

(** A string that neither starts nor ends with white space. *)
Definition starts_clean (s : pystr) : bool :=
  match s with
  | [] => true
  | c :: _ => negb (isspace c)
  end.

Definition trimmed (s : pystr) : bool := starts_clean s && starts_clean (rev s).

(** An input that closes the tag around it and opens the tag again. *)
Definition reopening (before after : pystr) : pystr :=
  before ++ indent ++ lit "</vague_prompt>" ++ indent
         ++ lit "<vague_prompt>" ++ indent ++ after.

(** The number of error boxes in a log. *)
Definition error_boxes (log : list event) : nat := length (List.filter is_st_error log).

(** ** Proof automation *)

Arguments lit : simpl never.
Arguments full_prompt_for_deepseek : simpl never.
Arguments deepseek_request : simpl never.

(** Case analysis on a chain of pure steps, closing the goals that say
    which exception a step raised. *)
Ltac outcome_cases :=
  cbn;
  repeat match goal with
    | |- Raises _ = Raises _ -> _ => intros [= <-]; reflexivity
    | |- Returns _ = Raises _ -> _ => discriminate
    | |- context [dict_get ?d ?k] => destruct (dict_get d k); cbn
    | |- context [match ?x with _ => _ end] => is_var x; destruct x; cbn
    end.

(** ** Strings *)

Lemma infix_here (needle hay post : pystr) :
  hay = needle ++ post -> infix needle hay.
Proof. intros ->. by exists [], post. Qed.

Lemma infix_app_r (needle skipped hay : pystr) :
  infix needle hay -> infix needle (skipped ++ hay).
Proof.
  intros (pre & post & ->). exists (skipped ++ pre), post.
  by rewrite <- app_assoc.
Qed.

Lemma infix_indented (needle hay post : pystr) :
  hay = lit "    " ++ needle ++ post -> infix needle hay.
Proof. intros ->. apply infix_app_r. by apply infix_here with post. Qed.

Lemma infix_inner (body before after : pystr) :
  infix body (before ++ body ++ after).
Proof. by exists before, after. Qed.

(** Skip the pieces of the template up to the line that opens the tag of
    the goal, then check the tagged block piece by piece. *)
Ltac locate_tag :=
  lazymatch goal with
  | |- infix (tagged (lit ?t) _) (lit ?s ++ _) =>
      let opening := eval cbv in ("    <" +:+ t +:+ ">") in
      first [ constr_eq s opening;
              eapply infix_indented; unfold tagged, indent;
              rewrite <- ?app_assoc; reflexivity
            | apply infix_app_r; locate_tag ]
  | |- _ => apply infix_app_r; locate_tag
  end.

Lemma truthy_true_iff (s : pystr) : truthy s = true <-> s <> [].
Proof. destruct s; cbn; split; congruence. Qed.

Lemma lstrip_blank (s : pystr) : forallb isspace s = true -> lstrip s = [].
Proof.
  induction s as [|c s IH]; cbn; [done|].
  intros [Hc Hs]%andb_true_iff. rewrite Hc. auto.
Qed.

(** A string of white space only strips to the empty string. *)
Lemma strip_blank (s : pystr) : forallb isspace s = true -> strip s = [].
Proof. intros H. unfold strip. by rewrite (lstrip_blank s H). Qed.

Lemma lstrip_suffix (s : pystr) : exists blank, s = blank ++ lstrip s /\ forallb isspace blank = true.
Proof.
  induction s as [|c s (blank & E & Hb)]; cbn.
  - by exists [].
  - destruct (isspace c) eqn:Hc.
    + exists (c :: blank). cbn. rewrite Hc, Hb. split; [congruence | done].
    + by exists [].
Qed.

(** [strip] only removes white space, and only at the two ends. *)
Lemma strip_spec (s : pystr) :
  exists before after,
    s = before ++ strip s ++ after
    /\ forallb isspace before = true /\ forallb isspace after = true.
Proof.
  destruct (lstrip_suffix s) as (before & E1 & Hb).
  destruct (lstrip_suffix (rev (lstrip s))) as (after & E2 & Ha).
  exists before, (rev after). repeat split; [ | done | ].
  - unfold strip, rstrip. rewrite <- rev_app_distr, <- E2, rev_involutive. exact E1.
  - rewrite forallb_forall in *. intros c Hc. apply Ha. by apply in_rev.
Qed.

(** ** The extraction chain *)

(** The chain raises none of the exceptions the [except] clauses take. *)
Lemma extract_content_raises (v : pyval) (e : exn) :
  extract_content v = Raises e -> is_httpx_error e = false.
Proof. unfold extract_content, py_get, py_getitem0, py_strip. outcome_cases. Qed.

(** On an envelope of the accepted shape the chained defaults agree with
    the optional-path lookup that falls back to the empty string. *)
Lemma extract_content_on_shape (v : pyval) :
  envelope_shape v = true ->
  extract_content v = Returns (strip (default [] (path_content v))).
Proof.
  unfold envelope_shape, choices_shape, choice_shape, message_shape, absent_or, is_str,
    extract_content, path_content, py_get.
  destruct v as [ | | | | | | top]; try discriminate.
  destruct (dict_get top _) as [[ | | | | | [|[ | | | | | | choice] rest] | ] | ];
    try discriminate; cbn; [ | reflexivity ].
  destruct (dict_get choice _) as [[ | | | | | | message] | ];
    try discriminate; cbn; [ | reflexivity ].
  destruct (dict_get message _) as [[ | | | | s | | ] | ];
    try discriminate; reflexivity.
Qed.

(** X9. The accepted shape is exactly where the chain returns: every
    other parsed body makes it raise. *)
Lemma extract_content_returns_iff (v : pyval) :
  (exists s, extract_content v = Returns s) <-> envelope_shape v = true.
Proof.
  split.
  - intros [s Hs]. revert Hs.
    unfold envelope_shape, choices_shape, choice_shape, message_shape, absent_or, is_str,
      extract_content, py_get, py_getitem0, py_strip.
    cbn.
    repeat match goal with
      | |- Raises _ = Returns _ -> _ => discriminate
      | |- _ -> true = true => reflexivity
      | |- context [dict_get ?d ?k] => destruct (dict_get d k); cbn
      | |- context [match ?x with _ => _ end] => is_var x; destruct x; cbn
      end.
  - intros H. eexists. by apply extract_content_on_shape.
Qed.

(** ** Logs *)

Lemma run_ret_bind {A B : Type} (a : A) (k : A -> run B) : (mret a ≫= k) = k a.
Proof. unfold mbind, run_bind, mret, run_ret. by destruct (k a). Qed.

Lemma run_raise_bind {A B : Type} (e : exn) (k : A -> run B) : (raise e ≫= k) = raise e.
Proof. reflexivity. Qed.

Lemma shows_app (kind : event -> bool) (l1 l2 : list event) :
  shows kind (l1 ++ l2) = shows kind l1 || shows kind l2.
Proof. apply existsb_app. Qed.

Lemma posts_app (l1 l2 : list event) : posts (l1 ++ l2) = posts l1 ++ posts l2.
Proof. apply List.filter_app. Qed.

(** No event of a log of posts and error boxes is of another kind. *)
Lemma shows_none_of (kind : event -> bool) (log : list event) :
  (forall ev, is_post ev || is_st_error ev = true -> kind ev = false) ->
  forallb (fun ev => is_post ev || is_st_error ev) log = true ->
  shows kind log = false.
Proof.
  intros Hkind. induction log as [|ev log IH]; cbn; [done|].
  intros [Hev Hlog]%andb_true_iff. rewrite (Hkind ev Hev). by apply IH.
Qed.

Lemma is_success_iff (response : Response) :
  is_success response = true <-> 200 <= status_code response <= 299.
Proof. unfold is_success. rewrite andb_true_iff, !Z.leb_le. tauto. Qed.

(** ** Credential resolution *)

Lemma resolve_credential_fallback (environ dotenv : gmap pystr pystr) :
  resolve_credential (Some ∅) environ dotenv =
  mret (match environ !! KEY_NAME with
        | Some value => Some value
        | None => dotenv !! KEY_NAME
        end).
Proof.
  unfold resolve_credential, not_secrets, load_dotenv.
  rewrite map_size_empty, bool_decide_eq_true_2 by done. cbn.
  rewrite lookup_union. by destruct (environ !! KEY_NAME), (dotenv !! KEY_NAME).
Qed.


(** A store that has entries but not the credential stops the script at
    module level: the subscript raises. *)
Lemma resolve_credential_missing_secret (secrets environ dotenv : gmap pystr pystr) :
  secrets <> ∅ -> secrets !! KEY_NAME = None ->
  resolve_credential (Some secrets) environ dotenv = raise KeyError.
Proof.
  intros Hne H. unfold resolve_credential, not_secrets, secrets_getitem.
  rewrite bool_decide_eq_false_2, H; [done|].
  by intros E%map_size_empty_iff.
Qed.




(** ** Prompt composition *)

(** C6. For every non-empty user input the composed instruction holds the
    input verbatim between the [<vague_prompt>] tags and the whole
    knowledge base verbatim between the [<knowledge_base>] tags. *)
Theorem composed_prompt_holds_input_and_knowledge_base (user_prompt : pystr) :
  truthy user_prompt = true ->
  infix (tagged (lit "vague_prompt") user_prompt) (full_prompt_for_deepseek user_prompt)
  /\ infix (tagged (lit "knowledge_base") KNOWLEDGE_BASE)
       (full_prompt_for_deepseek user_prompt).
Proof.
  intros _. split; unfold full_prompt_for_deepseek; locate_tag.
Qed.

(** The composed instruction is the content of the one message sent. *)
Lemma deepseek_request_carries_prompt (key : option pystr) (user_prompt : pystr) :
  json_body (deepseek_request key user_prompt)
  = PyDict [(lit "model", PyStr DEEPSEEK_MODEL);
            (lit "messages",
             PyList [PyDict [(lit "role", PyStr (lit "user"));
                             (lit "content",
                              PyStr (full_prompt_for_deepseek user_prompt))]]);
            (lit "max_tokens", PyInt 2048);
            (lit "temperature", PyFloat 0x3FE6666666666666)].
Proof. reflexivity. Qed.

(** ** Response extraction *)

(** C2, as amended.  For every parsed body that is an object in which each
    key on the path [choices[0].message.content] is absent or holds a
    value of the expected type (a list whose first item is an object, an
    object, a string), the extraction returns a string: the trimmed text
    at the end of the path, and the empty string when a key on the path
    is absent. *)
Theorem extract_content_defaults (api_response : pyval) :
  envelope_shape api_response = true ->
  exists refined_prompt,
    extract_content api_response = Returns refined_prompt
    /\ refined_prompt = strip (default [] (path_content api_response))
    /\ (path_content api_response = None -> refined_prompt = []).
Proof.
  intros H. eexists. split; [ by apply extract_content_on_shape | ].
  split; [ reflexivity | ]. by intros ->.
Qed.

(** C2, as stated, fails: a body whose [content] is [null] makes
    [.strip()] raise. *)
Lemma extract_content_null_content_raises :
  extract_content null_content_body = Raises AttributeError.
Proof. vm_compute. reflexivity. Qed.

(** ** The call function *)

Section Properties.

Variable network : Request -> post_outcome.

(** Without a credential the function shows one error box and returns
    [None]. *)
Lemma refine_prompt_core_no_key (key : option pystr) (user_prompt : pystr) :
  truthy_opt key = false ->
  refine_prompt_core network key user_prompt = ([st_error MSG_NO_KEY], Returns None).
Proof. intros H. unfold refine_prompt_core. by rewrite H. Qed.

(** With a credential: one post, then one of six ways out. *)
Lemma refine_prompt_core_cases (key : option pystr) (user_prompt : pystr) :
  truthy_opt key = true ->
  refine_prompt_core network key user_prompt =
  let request := deepseek_request key user_prompt in
  match network request with
  | Unencodable => ([httpx_post request], Raises UnicodeEncodeError)
  | Failed message =>
      ([httpx_post request;
        st_error (lit "An error occurred while calling the DeepSeek API: " ++ message)],
       Returns None)
  | Responded response =>
      if is_success response then
        match json response with
        | None => ([httpx_post request], Raises JSONDecodeError)
        | Some api_response =>
            match extract_content api_response with
            | Returns refined_prompt => ([httpx_post request], Returns (Some refined_prompt))
            | Raises e => ([httpx_post request], Raises e)
            end
        end
      else
        ([httpx_post request; st_error (lit "DeepSeek API error: " ++ text response)],
         Returns None)
  end.
Proof.
  intros Hkey. unfold refine_prompt_core, post. rewrite Hkey. cbv zeta.
  generalize (deepseek_request key user_prompt). intros request.
  destruct (network request) as [response | message | ]; cbn;
    [ | reflexivity | reflexivity ].
  unfold raise_for_status, response_json.
  destruct (is_success response); cbn; [ | reflexivity ].
  destruct (json response) as [api_response | ]; cbn; [ | reflexivity ].
  destruct (extract_content api_response) as [refined_prompt | e] eqn:E; cbn;
    [ reflexivity | ].
  apply extract_content_raises in E. by destruct e.
Qed.

(** A 2xx response with a parsed body: the outcome is that of the
    extraction chain. *)
Lemma refine_prompt_core_parsed
    (key : option pystr) (user_prompt : pystr) (response : Response) (api_response : pyval) :
  truthy_opt key = true ->
  network (deepseek_request key user_prompt) = Responded response ->
  200 <= status_code response <= 299 ->
  json response = Some api_response ->
  refine_prompt_core network key user_prompt =
  ([httpx_post (deepseek_request key user_prompt)],
   refined_prompt ← extract_content api_response; mret (Some refined_prompt)).
Proof.
  intros Hkey Hnet Hstatus%is_success_iff Hjson.
  rewrite refine_prompt_core_cases by exact Hkey. cbv zeta.
  rewrite Hnet, Hstatus, Hjson. by destruct (extract_content api_response).
Qed.

(** The function writes nothing but posts and error boxes. *)
Lemma refine_prompt_core_log (key : option pystr) (user_prompt : pystr) :
  forallb (fun ev => is_post ev || is_st_error ev)
    (fst (refine_prompt_core network key user_prompt)) = true.
Proof.
  destruct (truthy_opt key) eqn:Hkey.
  - rewrite refine_prompt_core_cases by exact Hkey. cbv zeta.
    destruct (network _) as [response | message | ]; [ | reflexivity | reflexivity ].
    destruct (is_success response); [ | reflexivity ].
    destruct (json response) as [v|]; [ | reflexivity ].
    by destruct (extract_content v).
  - by rewrite refine_prompt_core_no_key.
Qed.

(** The function posts at most once. *)
Lemma refine_prompt_core_posts_once (key : option pystr) (user_prompt : pystr) :
  (length (posts (fst (refine_prompt_core network key user_prompt))) <= 1)%nat.
Proof.
  destruct (truthy_opt key) eqn:Hkey.
  - rewrite refine_prompt_core_cases by exact Hkey. cbv zeta.
    destruct (network _) as [response | message | ]; [ | cbn; lia | cbn; lia ].
    destruct (is_success response); [ | cbn; lia ].
    destruct (json response) as [v|]; [ | cbn; lia ].
    destruct (extract_content v); cbn; lia.
  - rewrite refine_prompt_core_no_key by done. cbn. lia.
Qed.

(** ** The button handler *)

(** What the handler adds around the call, by the outcome of the call. *)
Lemma on_button_cases (key : option pystr) (user_prompt : pystr) :
  truthy user_prompt = true ->
  on_button network key user_prompt =
  let call := refine_prompt_core network key user_prompt in
  match snd call with
  | Returns refined_prompt =>
      if truthy_opt refined_prompt then
        if utf8_encodable (py_str refined_prompt) then
          (st_spinner_enter MSG_SPINNER
             :: fst call
             ++ [st_success (lit "Prompt Refined Successfully!");
                 st_subheader (lit "Final Engineered Prompt:");
                 st_code (py_str refined_prompt) (lit "text");
                 st_spinner_exit],
           Returns tt)
        else
          (st_spinner_enter MSG_SPINNER
             :: fst call
             ++ [st_success (lit "Prompt Refined Successfully!");
                 st_subheader (lit "Final Engineered Prompt:");
                 st_spinner_exit],
           Raises UnicodeEncodeError)
      else
        (st_spinner_enter MSG_SPINNER :: fst call ++ [st_error MSG_NO_RESULT; st_spinner_exit],
         Returns tt)
  | Raises e =>
      (st_spinner_enter MSG_SPINNER :: fst call ++ [st_spinner_exit], Raises e)
  end.
Proof.
  intros Hu. unfold on_button, code_block. rewrite Hu. cbv zeta.
  destruct (refine_prompt_core network key user_prompt) as [log [refined_prompt|e]];
    cbn;
    [ destruct (truthy_opt refined_prompt); cbn;
      [ destruct (utf8_encodable (py_str refined_prompt)); cbn | ] | ];
    rewrite <- ?app_assoc; reflexivity.
Qed.

Lemma on_button_empty (key : option pystr) :
  on_button network key [] = ([st_warning MSG_EMPTY_INPUT], Returns tt).
Proof. reflexivity. Qed.

(** The page is its widgets followed by the handler, when the button was
    pressed. *)
Lemma page_cases (key : option pystr) (user_prompt : pystr) (pressed : bool) :
  page network key user_prompt pressed =
  let handler := if pressed then on_button network key user_prompt else mret tt in
  (widgets ++ fst handler, snd handler).
Proof.
  unfold page. cbv zeta.
  by destruct (if pressed then _ else _) as [log o].
Qed.

(** Without a credential no run of the page posts. *)
Lemma page_no_key_no_post (key : option pystr) (user_prompt : pystr) (pressed : bool) :
  truthy_opt key = false ->
  posts (fst (page network key user_prompt pressed)) = [].
Proof.
  intros Hkey. rewrite page_cases. cbv zeta. cbn [fst]. rewrite posts_app.
  destruct pressed; [ | reflexivity ].
  destruct (truthy user_prompt) eqn:Hu.
  - rewrite on_button_cases by exact Hu. cbv zeta.
    by rewrite refine_prompt_core_no_key.
  - unfold on_button. by rewrite Hu.
Qed.

(** When neither source yields a credential the whole run of the script
    makes no outbound call, whatever the input and the button. *)
Lemma script_without_credential_never_posts
    (environ dotenv : gmap pystr pystr) (user_prompt : pystr) (pressed : bool) :
  environ !! KEY_NAME = None ->
  dotenv !! KEY_NAME = None ->
  posts (fst (script network (Some ∅) environ dotenv user_prompt pressed)) = [].
Proof.
  intros Henv Hdot. unfold script.
  rewrite resolve_credential_fallback, Henv, Hdot, run_ret_bind.
  by apply page_no_key_no_post.
Qed.

(** X5. A store that has entries but not the credential ends the run
    before the first widget: nothing is drawn and nothing is sent. *)
Lemma script_missing_secret_stops
    (secrets environ dotenv : gmap pystr pystr) (user_prompt : pystr) (pressed : bool) :
  secrets <> ∅ -> secrets !! KEY_NAME = None ->
  script network (Some secrets) environ dotenv user_prompt pressed = ([], Raises KeyError).
Proof.
  intros Hne H. unfold script.
  by rewrite resolve_credential_missing_secret, run_raise_bind.
Qed.

(** Closes a claim on the handler from the equation [Hcall] of the call
    function, for a non-empty input [Hu]. *)
Ltac handler_after Hu Hcall :=
  rewrite on_button_cases by exact Hu; cbv zeta; rewrite Hcall; reflexivity.

(** ** The claims on the call function and the handler *)

(** C5. Whatever the input, when the credential is absent ([None] or the
    empty string) the call function shows an error box and returns
    [None] with no outbound call, and no run of the page posts. *)
Theorem no_credential_no_call (key : option pystr) (user_prompt : pystr) (pressed : bool) :
  truthy_opt key = false ->
  refine_prompt_core network key user_prompt = ([st_error MSG_NO_KEY], Returns None)
  /\ posts (fst (page network key user_prompt pressed)) = [].
Proof.
  intros Hkey. split.
  - by apply refine_prompt_core_no_key.
  - by apply page_no_key_no_post.
Qed.


(** C10. A 2xx response whose body is no JSON document: the parse error
    is of neither class the handlers take, so the call function raises it
    after the one post, with no error box, and the handler lets it
    through. *)
Theorem invalid_json_propagates (key user_prompt : pystr) (response : Response) :
  truthy key = true ->
  network (deepseek_request (Some key) user_prompt) = Responded response ->
  200 <= status_code response <= 299 ->
  json response = None ->
  refine_prompt_core network (Some key) user_prompt =
    ([httpx_post (deepseek_request (Some key) user_prompt)], Raises JSONDecodeError)
  /\ is_httpx_error JSONDecodeError = false
  /\ (truthy user_prompt = true ->
      snd (on_button network (Some key) user_prompt) = Raises JSONDecodeError).
Proof.
  intros Hkey Hnet Hstatus%is_success_iff Hjson.
  assert (refine_prompt_core network (Some key) user_prompt =
    ([httpx_post (deepseek_request (Some key) user_prompt)], Raises JSONDecodeError)) as Hcall.
  { rewrite refine_prompt_core_cases by exact Hkey. cbv zeta.
    by rewrite Hnet, Hstatus, Hjson. }
  repeat split; [ exact Hcall | ].
  intros Hu. handler_after Hu Hcall.
Qed.

(** C7. HTTP 200 with the body
    [{"choices":[{"message":{"content":"  Hello World  "}}]}]: the call
    function returns exactly [Hello World], and the handler shows the
    success box and that text in the code block. *)
Theorem hello_world_is_trimmed_and_displayed
    (key user_prompt : pystr) (response : Response) :
  truthy key = true ->
  truthy user_prompt = true ->
  network (deepseek_request (Some key) user_prompt) = Responded response ->
  status_code response = 200 ->
  json response = Some hello_world_body ->
  refine_prompt_core network (Some key) user_prompt =
    ([httpx_post (deepseek_request (Some key) user_prompt)], Returns (Some (lit "Hello World")))
  /\ on_button network (Some key) user_prompt =
     ([st_spinner_enter MSG_SPINNER;
       httpx_post (deepseek_request (Some key) user_prompt);
       st_success (lit "Prompt Refined Successfully!");
       st_subheader (lit "Final Engineered Prompt:");
       st_code (lit "Hello World") (lit "text");
       st_spinner_exit],
      Returns tt).
Proof.
  intros Hkey Hu Hnet Hstatus Hjson.
  pose proof (refine_prompt_core_parsed (Some key) user_prompt response hello_world_body
                Hkey Hnet ltac:(lia) Hjson) as Hcall.
  change (extract_content hello_world_body) with (Returns (A:=pystr) (lit "Hello World"))
    in Hcall.
  split; [ exact Hcall | handler_after Hu Hcall ].
Qed.

(** The path next to the one of C1: with the body [{}] the key [choices]
    is absent, the default [[{}]] supplies an item, the function returns
    the empty string and the handler shows its error box. *)
Lemma absent_choices_shows_error (key user_prompt : pystr) (response : Response) :
  truthy key = true ->
  truthy user_prompt = true ->
  network (deepseek_request (Some key) user_prompt) = Responded response ->
  status_code response = 200 ->
  json response = Some empty_object_body ->
  refine_prompt_core network (Some key) user_prompt =
    ([httpx_post (deepseek_request (Some key) user_prompt)], Returns (Some []))
  /\ on_button network (Some key) user_prompt =
     ([st_spinner_enter MSG_SPINNER;
       httpx_post (deepseek_request (Some key) user_prompt);
       st_error MSG_NO_RESULT;
       st_spinner_exit],
      Returns tt).
Proof.
  intros Hkey Hu Hnet Hstatus Hjson.
  pose proof (refine_prompt_core_parsed (Some key) user_prompt response empty_object_body
                Hkey Hnet ltac:(lia) Hjson) as Hcall.
  split; [ exact Hcall | handler_after Hu Hcall ].
Qed.

(** C1, on the code.  HTTP 200 with the body [{"choices":[]}]: the key is
    present, so the default [[{}]] is not used, and [[0]] on the empty
    list raises [IndexError].  Neither handler takes it: the call function
    raises after the one post, the handler never reaches its error
    branch, and the run ends with the exception. *)
Theorem empty_choices_raises_IndexError
    (key user_prompt : pystr) (response : Response) :
  truthy key = true ->
  truthy user_prompt = true ->
  network (deepseek_request (Some key) user_prompt) = Responded response ->
  status_code response = 200 ->
  json response = Some empty_choices_body ->
  refine_prompt_core network (Some key) user_prompt =
    ([httpx_post (deepseek_request (Some key) user_prompt)], Raises IndexError)
  /\ on_button network (Some key) user_prompt =
     ([st_spinner_enter MSG_SPINNER;
       httpx_post (deepseek_request (Some key) user_prompt);
       st_spinner_exit],
      Raises IndexError).
Proof.
  intros Hkey Hu Hnet Hstatus Hjson.
  pose proof (refine_prompt_core_parsed (Some key) user_prompt response empty_choices_body
                Hkey Hnet ltac:(lia) Hjson) as Hcall.
  split; [ exact Hcall | handler_after Hu Hcall ].
Qed.

(** C9. With a non-empty input, the handler shows the success box exactly
    when the call function returns a non-empty string.  In particular a
    2xx response whose content trims to the empty string ends in the
    error box of the handler, not in the success box. *)
Theorem success_iff_nonempty_result (key : option pystr) (user_prompt : pystr) :
  truthy user_prompt = true ->
  (shows is_st_success (fst (on_button network key user_prompt)) = true
   <-> exists refined_prompt,
         snd (refine_prompt_core network key user_prompt) = Returns (Some refined_prompt)
         /\ truthy refined_prompt = true)
  /\ (forall k response api_response,
        key = Some k -> truthy k = true ->
        network (deepseek_request (Some k) user_prompt) = Responded response ->
        200 <= status_code response <= 299 ->
        json response = Some api_response ->
        extract_content api_response = Returns [] ->
        on_button network key user_prompt =
        ([st_spinner_enter MSG_SPINNER;
          httpx_post (deepseek_request (Some k) user_prompt);
          st_error MSG_NO_RESULT;
          st_spinner_exit],
         Returns tt)).
Proof.
  intros Hu. split.
  - rewrite on_button_cases by exact Hu. cbv zeta.
    assert (shows is_st_success (fst (refine_prompt_core network key user_prompt)) = false)
      as Hquiet.
    { apply shows_none_of; [ by intros [] | apply refine_prompt_core_log ]. }
    destruct (refine_prompt_core network key user_prompt) as [log [[[|c s]|]|e]];
      cbn [fst snd truthy_opt truthy py_str] in *;
      try destruct (utf8_encodable (c :: s));
      cbn [fst];
      change (shows is_st_success (?ev :: ?l)) with (is_st_success ev || shows is_st_success l);
      rewrite shows_app, Hquiet; cbn.
    + split; [ discriminate | ]. by intros (s & [= <-] & ?).
    + split; [ | done ]. intros _. by exists (c :: s).
    + split; [ | done ]. intros _. by exists (c :: s).
    + split; [ discriminate | ]. by intros (s & [=] & ?).
    + split; [ discriminate | ]. by intros (s & [=] & ?).
  - intros k response api_response -> Hk Hnet Hstatus Hjson Hcontent.
    pose proof (refine_prompt_core_parsed (Some k) user_prompt response api_response
                  Hk Hnet Hstatus Hjson) as Hcall.
    rewrite Hcontent in Hcall. handler_after Hu Hcall.
Qed.

(** C3, as amended.  Pressing the button with the empty input makes no
    outbound call and shows the warning instead. *)
Theorem empty_input_warns_without_call (key : option pystr) :
  on_button network key [] = ([st_warning MSG_EMPTY_INPUT], Returns tt)
  /\ posts (fst (page network key [] true)) = []
  /\ shows is_st_warning (fst (page network key [] true)) = true.
Proof.
  split; [ reflexivity | ].
  rewrite page_cases. cbv zeta. by rewrite on_button_empty.
Qed.

End Properties.

(** ** The claims at concrete inputs *)

(** C3, as stated, fails on input that is white space only: three blanks
    are a true value for [if user_prompt:], so with a credential the
    request leaves and no warning is shown. *)
Lemma blank_input_is_posted :
  forallb isspace (lit "   ") = true
  /\ posts (fst (page (answering (ok_json hello_world_body))
                   (Some sample_key) (lit "   ") true))
     = [httpx_post (deepseek_request (Some sample_key) (lit "   "))]
  /\ shows is_st_warning
       (fst (page (answering (ok_json hello_world_body))
               (Some sample_key) (lit "   ") true)) = false.
Proof. vm_compute. repeat split. Qed.


(** C6 at the input [write a poem]. *)
Lemma composed_prompt_holds_input_and_knowledge_base_witness :
  truthy sample_prompt = true
  /\ infix (tagged (lit "vague_prompt") sample_prompt) (full_prompt_for_deepseek sample_prompt)
  /\ infix (tagged (lit "knowledge_base") KNOWLEDGE_BASE)
       (full_prompt_for_deepseek sample_prompt).
Proof.
  split; [ reflexivity | ].
  apply (composed_prompt_holds_input_and_knowledge_base sample_prompt). reflexivity.
Defined.

(** C2, as amended, at [{"choices":[{"message":{}}]}]. *)
Lemma extract_content_defaults_witness :
  envelope_shape no_content_body = true
  /\ exists refined_prompt,
       extract_content no_content_body = Returns refined_prompt
       /\ refined_prompt = strip (default [] (path_content no_content_body))
       /\ (path_content no_content_body = None -> refined_prompt = []).
Proof.
  split; [ reflexivity | ].
  apply (extract_content_defaults no_content_body). reflexivity.
Defined.

(** C5 at the empty credential. *)
Lemma no_credential_no_call_witness :
  truthy_opt (Some []) = false
  /\ refine_prompt_core (answering (ok_json hello_world_body)) (Some []) sample_prompt
     = ([st_error MSG_NO_KEY], Returns None)
  /\ posts (fst (page (answering (ok_json hello_world_body)) (Some []) sample_prompt true))
     = [].
Proof.
  split; [ reflexivity | ].
  apply (no_credential_no_call (answering (ok_json hello_world_body))
           (Some []) sample_prompt true).
  reflexivity.
Defined.


(** C10 at HTTP 200 with an HTML body. *)
Lemma invalid_json_propagates_witness :
  refine_prompt_core (answering ok_html) (Some sample_key) sample_prompt =
    ([httpx_post (deepseek_request (Some sample_key) sample_prompt)], Raises JSONDecodeError)
  /\ is_httpx_error JSONDecodeError = false
  /\ (truthy sample_prompt = true ->
      snd (on_button (answering ok_html) (Some sample_key) sample_prompt)
      = Raises JSONDecodeError).
Proof.
  apply (invalid_json_propagates (answering ok_html) sample_key sample_prompt ok_html);
    [ reflexivity | reflexivity | cbn; lia | reflexivity ].
Defined.

(** C7 at a remote side that answers with the body of the claim. *)
Lemma hello_world_is_trimmed_and_displayed_witness :
  refine_prompt_core (answering (ok_json hello_world_body)) (Some sample_key) sample_prompt =
    ([httpx_post (deepseek_request (Some sample_key) sample_prompt)],
     Returns (Some (lit "Hello World")))
  /\ on_button (answering (ok_json hello_world_body)) (Some sample_key) sample_prompt =
     ([st_spinner_enter MSG_SPINNER;
       httpx_post (deepseek_request (Some sample_key) sample_prompt);
       st_success (lit "Prompt Refined Successfully!");
       st_subheader (lit "Final Engineered Prompt:");
       st_code (lit "Hello World") (lit "text");
       st_spinner_exit],
      Returns tt).
Proof.
  apply (hello_world_is_trimmed_and_displayed (answering (ok_json hello_world_body))
           sample_key sample_prompt (ok_json hello_world_body));
    reflexivity.
Defined.

(** C1 at a remote side that answers with the body of the claim. *)
Lemma empty_choices_raises_IndexError_witness :
  refine_prompt_core (answering (ok_json empty_choices_body)) (Some sample_key) sample_prompt =
    ([httpx_post (deepseek_request (Some sample_key) sample_prompt)], Raises IndexError)
  /\ on_button (answering (ok_json empty_choices_body)) (Some sample_key) sample_prompt =
     ([st_spinner_enter MSG_SPINNER;
       httpx_post (deepseek_request (Some sample_key) sample_prompt);
       st_spinner_exit],
      Raises IndexError).
Proof.
  apply (empty_choices_raises_IndexError (answering (ok_json empty_choices_body))
           sample_key sample_prompt (ok_json empty_choices_body));
    reflexivity.
Defined.

(** C9 at content of three blanks: the call succeeds, the page reports an
    error. *)
Lemma success_iff_nonempty_result_witness :
  truthy sample_prompt = true
  /\ on_button (answering (ok_json blank_content_body)) (Some sample_key) sample_prompt =
     ([st_spinner_enter MSG_SPINNER;
       httpx_post (deepseek_request (Some sample_key) sample_prompt);
       st_error MSG_NO_RESULT;
       st_spinner_exit],
      Returns tt).
Proof.
  split; [ reflexivity | ].
  destruct (success_iff_nonempty_result (answering (ok_json blank_content_body))
              (Some sample_key) sample_prompt eq_refl) as [_ H].
  apply (H sample_key (ok_json blank_content_body) blank_content_body);
    [ reflexivity | reflexivity | reflexivity | cbn; lia | reflexivity | reflexivity ].
Defined.

(** ** Further properties of the strings *)

Lemma lstrip_starts_clean (s : pystr) : starts_clean (lstrip s) = true.
Proof.
  induction s as [|c s IH]; cbn; [done|].
  destruct (isspace c) eqn:Hc; [exact IH|]. cbn. by rewrite Hc.
Qed.

Lemma lstrip_snoc (s : pystr) (c : N) :
  isspace c = false -> lstrip (s ++ [c]) = lstrip s ++ [c].
Proof.
  intros Hc. induction s as [|d s IH]; cbn; [by rewrite Hc|].
  by destruct (isspace d).
Qed.

Lemma lstrip_clean (s : pystr) : starts_clean s = true -> lstrip s = s.
Proof. destruct s as [|c s]; cbn; [done|]. by destruct (isspace c). Qed.

(** What [strip] returns is trimmed, and [strip] leaves a trimmed string
    as it is. *)
Lemma strip_trimmed (s : pystr) : trimmed (strip s) = true.
Proof.
  unfold trimmed, strip, rstrip. rewrite rev_involutive, lstrip_starts_clean, andb_true_r.
  pose proof (lstrip_starts_clean s) as H.
  destruct (lstrip s) as [|c t]; [done|]. cbn in H. apply negb_true_iff in H.
  cbn [rev]. rewrite lstrip_snoc by exact H.
  rewrite rev_app_distr. cbn. by rewrite H.
Qed.

Lemma strip_of_trimmed (s : pystr) : trimmed s = true -> strip s = s.
Proof.
  intros [H1 H2]%andb_true_iff. unfold strip, rstrip.
  by rewrite (lstrip_clean s H1), (lstrip_clean (rev s) H2), rev_involutive.
Qed.

Lemma infix_trans (a b c : pystr) : infix a b -> infix b c -> infix a c.
Proof.
  intros (p1 & s1 & ->) (p2 & s2 & ->). exists (p2 ++ p1), (s1 ++ s2).
  by rewrite <- !app_assoc.
Qed.

Lemma vague_prompt_block (user_prompt : pystr) :
  infix (tagged (lit "vague_prompt") user_prompt) (full_prompt_for_deepseek user_prompt).
Proof. unfold full_prompt_for_deepseek. locate_tag. Qed.

(** X10. The composed instruction determines the input: two inputs have
    the same composed instruction exactly when they are the same input. *)
Theorem full_prompt_injective (u1 u2 : pystr) :
  full_prompt_for_deepseek u1 = full_prompt_for_deepseek u2 <-> u1 = u2.
Proof.
  split; [ | by intros -> ].
  unfold full_prompt_for_deepseek. intros H.
  repeat apply app_inv_head in H.
  by apply app_inv_tail in H.
Qed.

(** X11. The input is interpolated as it is: an input that closes the
    [<vague_prompt>] tag and opens it again yields a composed instruction
    with two complete input blocks, one for the text before and one for
    the text after. *)
Theorem closing_tag_in_input_opens_second_block (before after : pystr) :
  tagged (lit "vague_prompt") (reopening before after)
  = tagged (lit "vague_prompt") before ++ indent ++ tagged (lit "vague_prompt") after
  /\ infix (tagged (lit "vague_prompt") before)
       (full_prompt_for_deepseek (reopening before after))
  /\ infix (tagged (lit "vague_prompt") after)
       (full_prompt_for_deepseek (reopening before after)).
Proof.
  assert (tagged (lit "vague_prompt") (reopening before after)
          = tagged (lit "vague_prompt") before ++ indent
              ++ tagged (lit "vague_prompt") after) as E.
  { unfold tagged, reopening. rewrite <- !app_assoc. reflexivity. }
  split; [ exact E | ].
  split; (eapply infix_trans; [ | apply vague_prompt_block ]); rewrite E.
  - by exists [], (indent ++ tagged (lit "vague_prompt") after).
  - exists (tagged (lit "vague_prompt") before ++ indent), [].
    by rewrite app_nil_r, <- app_assoc.
Qed.

(** ** Further properties of the extraction chain *)

Lemma dict_get_singleton (key : pystr) (v : pyval) : dict_get [(key, v)] key = Some v.
Proof. cbn. by rewrite decide_True. Qed.

(** X8. Only the first choice is read: the other choices and the other
    keys of the envelope have no effect on what the extraction returns or
    raises. *)
Theorem extraction_reads_first_choice_only
    (top : list (pystr * pyval)) (choice : pyval) (others : list pyval) :
  dict_get top (lit "choices") = Some (PyList (choice :: others)) ->
  extract_content (PyDict top)
  = extract_content (PyDict [(lit "choices", PyList [choice])]).
Proof.
  intros H. unfold extract_content, py_get.
  by rewrite H, dict_get_singleton.
Qed.

(** A string the chain returns comes out of [strip]. *)
Lemma extract_content_stripped (v : pyval) (s : pystr) :
  extract_content v = Returns s -> exists content, s = strip content.
Proof.
  unfold extract_content, py_get, py_getitem0, py_strip. cbn.
  repeat match goal with
    | |- Raises _ = Returns _ -> _ => discriminate
    | |- Returns (strip ?t) = Returns _ -> _ => intros [= <-]; by exists t
    | |- Returns [] = Returns _ -> _ => intros [= <-]; by exists []
    | |- context [dict_get ?d ?k] => destruct (dict_get d k); cbn
    | |- context [match ?x with _ => _ end] => is_var x; destruct x; cbn
    end.
Qed.

(** ** Further properties of the call function, the handler and the script *)

Lemma resolve_credential_quiet
    (secrets : secret_store) (environ dotenv : gmap pystr pystr) :
  fst (resolve_credential secrets environ dotenv) = [].
Proof.
  unfold resolve_credential, not_secrets, secrets_getitem.
  destruct secrets as [store|]; [ | reflexivity ]. cbn.
  destruct (bool_decide _); [ reflexivity | ]. by destruct (store !! KEY_NAME).
Qed.

Section Further.

Variable network : Request -> post_outcome.

(** The four ways a call ends: no credential; a failure the function
    reports itself; a trimmed string; an exception it lets through. *)
Lemma refine_prompt_core_outcomes (key : option pystr) (user_prompt : pystr) :
  let request := deepseek_request key user_prompt in
  let call := refine_prompt_core network key user_prompt in
  (truthy_opt key = false /\ call = ([st_error MSG_NO_KEY], Returns None))
  \/ (truthy_opt key = true /\
      exists body, call = ([httpx_post request; st_error body], Returns None))
  \/ (truthy_opt key = true /\
      exists refined_prompt,
        call = ([httpx_post request], Returns (Some refined_prompt))
        /\ trimmed refined_prompt = true)
  \/ (truthy_opt key = true /\
      exists e, call = ([httpx_post request], Raises e) /\ is_httpx_error e = false).
Proof.
  cbv zeta. destruct (truthy_opt key) eqn:Hkey.
  - right. rewrite refine_prompt_core_cases by exact Hkey. cbv zeta.
    destruct (network _) as [response | message | ];
      [ | left; eauto | right; right; eauto ].
    destruct (is_success response); [ | left; eauto ].
    right. destruct (json response) as [v|]; [ | right; eauto ].
    destruct (extract_content v) as [s|e] eqn:E.
    + left. split; [done|]. exists s. split; [done|].
      apply extract_content_stripped in E as [content ->]. apply strip_trimmed.
    + right. split; [done|]. exists e. split; [done|]. by apply extract_content_raises in E.
  - left. by rewrite refine_prompt_core_no_key.
Qed.

(** X1. A transport failure (no response at all) makes the call function
    show one error box with the description of the failure and return
    [None] after the one post; the handler then adds its own error box. *)
Theorem transport_failure_is_reported
    (key : option pystr) (user_prompt message : pystr) :
  truthy_opt key = true ->
  network (deepseek_request key user_prompt) = Failed message ->
  refine_prompt_core network key user_prompt =
    ([httpx_post (deepseek_request key user_prompt);
      st_error (lit "An error occurred while calling the DeepSeek API: " ++ message)],
     Returns None)
  /\ (truthy user_prompt = true ->
      on_button network key user_prompt =
      ([st_spinner_enter MSG_SPINNER;
        httpx_post (deepseek_request key user_prompt);
        st_error (lit "An error occurred while calling the DeepSeek API: " ++ message);
        st_error MSG_NO_RESULT;
        st_spinner_exit],
       Returns tt)).
Proof.
  intros Hkey Hnet.
  assert (refine_prompt_core network key user_prompt =
    ([httpx_post (deepseek_request key user_prompt);
      st_error (lit "An error occurred while calling the DeepSeek API: " ++ message)],
     Returns None)) as Hcall.
  { rewrite refine_prompt_core_cases by exact Hkey. cbv zeta. by rewrite Hnet. }
  split; [ exact Hcall | ]. intros Hu.
  rewrite on_button_cases by exact Hu. cbv zeta. by rewrite Hcall.
Qed.

(** X2. The call function shows an error box exactly when it returns
    [None]: it never returns [None] silently, and it shows no error box
    when it returns a string or raises. *)
Theorem error_box_iff_returns_None (key : option pystr) (user_prompt : pystr) :
  shows is_st_error (fst (refine_prompt_core network key user_prompt)) = true
  <-> snd (refine_prompt_core network key user_prompt) = Returns None.
Proof.
  destruct (refine_prompt_core_outcomes key user_prompt)
    as [[_ H] | [[_ (body & H)] | [[_ (s & H & _)] | [_ (e & H & _)]]]];
    rewrite H; cbn; split; congruence.
Qed.

(** X3. An exception that leaves the call function is never one of the
    two httpx classes, and it leaves without any error box: the log is
    the one post. *)
Theorem escaping_exception_is_silent (key : option pystr) (user_prompt : pystr) (e : exn) :
  snd (refine_prompt_core network key user_prompt) = Raises e ->
  is_httpx_error e = false
  /\ fst (refine_prompt_core network key user_prompt)
     = [httpx_post (deepseek_request key user_prompt)].
Proof.
  destruct (refine_prompt_core_outcomes key user_prompt)
    as [[_ H] | [[_ (body & H)] | [[_ (s & H & _)] | [_ (e' & H & He)]]]];
    rewrite H; cbn; try discriminate.
  by intros [= <-].
Qed.

(** X7. A string the call function returns is trimmed: it neither starts
    nor ends with white space, and stripping it again changes nothing. *)
Theorem returned_prompt_is_trimmed
    (key : option pystr) (user_prompt refined_prompt : pystr) :
  snd (refine_prompt_core network key user_prompt) = Returns (Some refined_prompt) ->
  trimmed refined_prompt = true /\ strip refined_prompt = refined_prompt.
Proof.
  destruct (refine_prompt_core_outcomes key user_prompt)
    as [[_ H] | [[_ (body & H)] | [[_ (s & H & Hs)] | [_ (e & H & _)]]]];
    rewrite H; cbn; try discriminate.
  intros [= <-]. split; [ exact Hs | by apply strip_of_trimmed ].
Qed.

(** X6. When the handler shows the success box, the call returned a
    non-empty string after the one call of [httpx.post], and the log is
    exactly: spinner, that call, the success box, the subheader, the code
    block with that string, spinner removed, with a normal end.  The one
    exception is a string with a lone surrogate: [st.code] raises on it,
    so after the subheader no code block is drawn, the spinner is removed
    and the handler ends with [UnicodeEncodeError].  In neither case does
    an error box or a warning come with the success box. *)
Theorem success_display_is_exact (key : option pystr) (user_prompt : pystr) :
  shows is_st_success (fst (on_button network key user_prompt)) = true ->
  exists refined_prompt,
    truthy refined_prompt = true
    /\ refine_prompt_core network key user_prompt
       = ([httpx_post (deepseek_request key user_prompt)], Returns (Some refined_prompt))
    /\ on_button network key user_prompt =
       if utf8_encodable refined_prompt then
         ([st_spinner_enter MSG_SPINNER;
           httpx_post (deepseek_request key user_prompt);
           st_success (lit "Prompt Refined Successfully!");
           st_subheader (lit "Final Engineered Prompt:");
           st_code refined_prompt (lit "text");
           st_spinner_exit],
          Returns tt)
       else
         ([st_spinner_enter MSG_SPINNER;
           httpx_post (deepseek_request key user_prompt);
           st_success (lit "Prompt Refined Successfully!");
           st_subheader (lit "Final Engineered Prompt:");
           st_spinner_exit],
          Raises UnicodeEncodeError).
Proof.
  destruct (truthy user_prompt) eqn:Hu;
    [ | unfold on_button; rewrite Hu; discriminate ].
  rewrite on_button_cases by exact Hu. cbv zeta.
  destruct (refine_prompt_core_outcomes key user_prompt)
    as [[_ H] | [[_ (body & H)] | [[_ (s & H & _)] | [_ (e & H & _)]]]];
    rewrite H; cbn; try discriminate.
  destruct s as [|c s]; cbn [truthy]; [ discriminate | ].
  intros _. exists (c :: s). split; [ reflexivity | ]. split; reflexivity.
Qed.

(** X12. For a non-empty input, a call that returns [None] leaves exactly
    two error boxes on the page, the one of the call function and the one
    of the handler; the spinner is removed last and no success box is
    shown. *)
Theorem reported_failure_shows_two_error_boxes (key : option pystr) (user_prompt : pystr) :
  truthy user_prompt = true ->
  snd (refine_prompt_core network key user_prompt) = Returns None ->
  error_boxes (fst (on_button network key user_prompt)) = 2%nat
  /\ last (fst (on_button network key user_prompt)) = Some st_spinner_exit
  /\ shows is_st_success (fst (on_button network key user_prompt)) = false.
Proof.
  intros Hu. rewrite on_button_cases by exact Hu. cbv zeta.
  destruct (refine_prompt_core_outcomes key user_prompt)
    as [[_ H] | [[_ (body & H)] | [[_ (s & H & _)] | [_ (e & H & _)]]]];
    rewrite H; cbn; try discriminate; done.
Qed.

(** The posts of the call function and of the handler. *)
Lemma refine_prompt_core_posts (key : option pystr) (user_prompt : pystr) :
  posts (fst (refine_prompt_core network key user_prompt))
  = if truthy_opt key then [httpx_post (deepseek_request key user_prompt)] else [].
Proof.
  destruct (refine_prompt_core_outcomes key user_prompt)
    as [[Hk H] | [[Hk (body & H)] | [[Hk (s & H & _)] | [Hk (e & H & _)]]]];
    by rewrite H, Hk.
Qed.

Lemma on_button_posts (key : option pystr) (user_prompt : pystr) :
  posts (fst (on_button network key user_prompt))
  = if truthy user_prompt && truthy_opt key
    then [httpx_post (deepseek_request key user_prompt)] else [].
Proof.
  destruct (truthy user_prompt) eqn:Hu;
    [ | unfold on_button; by rewrite Hu ].
  rewrite on_button_cases by exact Hu. cbv zeta. rewrite andb_true_l.
  rewrite <- refine_prompt_core_posts.
  destruct (refine_prompt_core network key user_prompt) as [log [rp|e]]; cbn [fst snd];
    [ destruct (truthy_opt rp); [ destruct (utf8_encodable (py_str rp)) | ] | ];
    cbn [fst]; change (posts (?ev :: ?l)) with (posts l);
    by rewrite posts_app, app_nil_r.
Qed.

(** X4. One run of the script calls [httpx.post] exactly when the
    credential resolves to a non-empty string, the button was pressed and
    the input is non-empty; it is then called once, with the request
    built from that credential and that input.  In every other run the
    function is not called, so nothing is sent; this includes the runs
    where the resolution raises.  How a call ends (response, transport
    failure, or a request that cannot be encoded and is never sent) is
    not part of this statement. *)
Theorem script_posts_exactly_when
    (secrets : secret_store) (environ dotenv : gmap pystr pystr)
    (user_prompt : pystr) (pressed : bool) :
  posts (fst (script network secrets environ dotenv user_prompt pressed))
  = match snd (resolve_credential secrets environ dotenv) with
    | Returns key =>
        if pressed && truthy user_prompt && truthy_opt key
        then [httpx_post (deepseek_request key user_prompt)]
        else []
    | Raises _ => []
    end.
Proof.
  unfold script.
  pose proof (resolve_credential_quiet secrets environ dotenv) as Hq.
  destruct (resolve_credential secrets environ dotenv) as [log [key|e]];
    cbn in Hq; subst log; cbn [snd]; [ | reflexivity ].
  change ([], Returns key) with (mret key : run (option pystr)).
  rewrite run_ret_bind, page_cases. cbv zeta. cbn [fst]. rewrite posts_app.
  change (posts widgets) with (@nil event). rewrite app_nil_l.
  destruct pressed; [ | reflexivity ].
  by rewrite on_button_posts.
Qed.

End Further.

(** A credential with a character outside ASCII: the call of [httpx.post]
    raises while the Authorization header is encoded, nothing reaches the
    remote side, and the exception leaves the call function with no error
    box. *)
Lemma non_ascii_credential_is_not_sent
    (wire : Request -> post_outcome) (key user_prompt : pystr) :
  truthy key = true ->
  ascii_encodable key = false ->
  refine_prompt_core (encoding_headers wire) (Some key) user_prompt
  = ([httpx_post (deepseek_request (Some key) user_prompt)], Raises UnicodeEncodeError).
Proof.
  intros Hkey Hascii.
  rewrite refine_prompt_core_cases by exact Hkey. cbv zeta.
  assert (headers_encodable (deepseek_request (Some key) user_prompt) = false) as E.
  { unfold headers_encodable.
    change (headers (deepseek_request (Some key) user_prompt))
      with [(lit "Authorization", lit "Bearer " ++ key);
            (lit "Content-Type", lit "application/json")].
    unfold ascii_encodable in *. cbn [forallb snd].
    by rewrite forallb_app, Hascii, andb_false_r. }
  unfold encoding_headers. by rewrite E.
Qed.

(** A returned text with a lone surrogate: the success box and the
    subheader are drawn, [st.code] raises, the spinner is removed and the
    handler ends with the exception. *)
Lemma lone_surrogate_breaks_code_block :
  on_button (answering (ok_json lone_surrogate_body)) (Some sample_key) sample_prompt
  = ([st_spinner_enter MSG_SPINNER;
      httpx_post (deepseek_request (Some sample_key) sample_prompt);
      st_success (lit "Prompt Refined Successfully!");
      st_subheader (lit "Final Engineered Prompt:");
      st_spinner_exit],
     Raises UnicodeEncodeError).
Proof. vm_compute. reflexivity. Qed.

(** ** The further properties at concrete inputs *)

(** X1 at a transport that times out. *)
Lemma transport_failure_is_reported_witness :
  refine_prompt_core (unreachable (lit "timed out")) (Some sample_key) sample_prompt =
    ([httpx_post (deepseek_request (Some sample_key) sample_prompt);
      st_error (lit "An error occurred while calling the DeepSeek API: timed out")],
     Returns None)
  /\ (truthy sample_prompt = true ->
      on_button (unreachable (lit "timed out")) (Some sample_key) sample_prompt =
      ([st_spinner_enter MSG_SPINNER;
        httpx_post (deepseek_request (Some sample_key) sample_prompt);
        st_error (lit "An error occurred while calling the DeepSeek API: timed out");
        st_error MSG_NO_RESULT;
        st_spinner_exit],
       Returns tt)).
Proof.
  apply (transport_failure_is_reported (unreachable (lit "timed out"))
           (Some sample_key) sample_prompt (lit "timed out"));
    reflexivity.
Defined.

(** X3 at HTTP 200 with an HTML body. *)
Lemma escaping_exception_is_silent_witness :
  is_httpx_error JSONDecodeError = false
  /\ fst (refine_prompt_core (answering ok_html) (Some sample_key) sample_prompt)
     = [httpx_post (deepseek_request (Some sample_key) sample_prompt)].
Proof.
  apply (escaping_exception_is_silent (answering ok_html)
           (Some sample_key) sample_prompt JSONDecodeError).
  reflexivity.
Defined.

(** X5 at a store that holds one other secret. *)
Lemma script_missing_secret_stops_witness :
  script (answering (ok_json hello_world_body))
    (Some {[ lit "OTHER_SECRET" := lit "x" ]}) {[ KEY_NAME := sample_key ]} ∅
    sample_prompt true
  = ([], Raises KeyError).
Proof.
  apply (script_missing_secret_stops (answering (ok_json hello_world_body))).
  - apply map_non_empty_singleton.
  - vm_compute. reflexivity.
Defined.

(** X6 at the body of C7. *)
Lemma success_display_is_exact_witness :
  exists refined_prompt,
    truthy refined_prompt = true
    /\ refine_prompt_core (answering (ok_json hello_world_body)) (Some sample_key) sample_prompt
       = ([httpx_post (deepseek_request (Some sample_key) sample_prompt)],
          Returns (Some refined_prompt))
    /\ on_button (answering (ok_json hello_world_body)) (Some sample_key) sample_prompt =
       if utf8_encodable refined_prompt then
         ([st_spinner_enter MSG_SPINNER;
           httpx_post (deepseek_request (Some sample_key) sample_prompt);
           st_success (lit "Prompt Refined Successfully!");
           st_subheader (lit "Final Engineered Prompt:");
           st_code refined_prompt (lit "text");
           st_spinner_exit],
          Returns tt)
       else
         ([st_spinner_enter MSG_SPINNER;
           httpx_post (deepseek_request (Some sample_key) sample_prompt);
           st_success (lit "Prompt Refined Successfully!");
           st_subheader (lit "Final Engineered Prompt:");
           st_spinner_exit],
          Raises UnicodeEncodeError).
Proof.
  apply (success_display_is_exact (answering (ok_json hello_world_body))
           (Some sample_key) sample_prompt).
  reflexivity.
Defined.

(** X7 at the body of C7. *)
Lemma returned_prompt_is_trimmed_witness :
  trimmed (lit "Hello World") = true /\ strip (lit "Hello World") = lit "Hello World".
Proof.
  apply (returned_prompt_is_trimmed (answering (ok_json hello_world_body))
           (Some sample_key) sample_prompt (lit "Hello World")).
  reflexivity.
Defined.

(** X8 at an envelope with a second choice and a key of its own. *)
Lemma extraction_reads_first_choice_only_witness :
  extract_content
    (PyDict [(lit "id", PyStr (lit "abc"));
             (lit "choices",
              PyList [PyDict [(lit "message", PyDict [(lit "content", PyStr (lit " one "))])];
                      PyDict [(lit "message", PyDict [(lit "content", PyStr (lit "two"))])]])])
  = extract_content
      (PyDict [(lit "choices",
                PyList [PyDict [(lit "message",
                                 PyDict [(lit "content", PyStr (lit " one "))])]])]).
Proof.
  apply (extraction_reads_first_choice_only
           [(lit "id", PyStr (lit "abc"));
            (lit "choices",
             PyList [PyDict [(lit "message", PyDict [(lit "content", PyStr (lit " one "))])];
                     PyDict [(lit "message", PyDict [(lit "content", PyStr (lit "two"))])]])]
           (PyDict [(lit "message", PyDict [(lit "content", PyStr (lit " one "))])])
           [PyDict [(lit "message", PyDict [(lit "content", PyStr (lit "two"))])]]).
  reflexivity.
Defined.

(** X12 at HTTP 429. *)
Lemma reported_failure_shows_two_error_boxes_witness :
  error_boxes (fst (on_button (answering rate_limited) (Some sample_key) sample_prompt))
  = 2%nat
  /\ last (fst (on_button (answering rate_limited) (Some sample_key) sample_prompt))
     = Some st_spinner_exit
  /\ shows is_st_success
       (fst (on_button (answering rate_limited) (Some sample_key) sample_prompt)) = false.
Proof.
  apply (reported_failure_shows_two_error_boxes (answering rate_limited)
           (Some sample_key) sample_prompt);
    reflexivity.
Defined.
